(** * perftool/utils.py: the sampling-and-recording loop

    A shallow embedding of [perftool/perftool/utils.py] and the properties
    that its specification states about it.

    Python values are modelled as follows.
    - [int] is [Z]; [float] is a binary64 value ([PrimFloat.float]);
      [str] is [string] (the output of the benchmark is taken as ASCII
      text, so [\d] matches the characters [0] to [9]).
    - A [dict] with [str] keys is the list of its items in insertion
      order ([dict_set] overwrites in place).
    - An exception is a constructor of [exn]; a call returns, raises, or
      exhausts the budget of iterations of a [while] loop ([outcome]).
    - The state of the process (the random generators, the working
      directory, [config.json], the CSV files, how child processes end)
      is the record [World], threaded through the monad [Py].

    [random], [re], [json], [subprocess] and [pandas] are not part of the
    repository; their calls are modelled by their documented behaviour.
    What a library leaves to chance or to its version is a parameter:
    the classes [RandomSource] and [Pandas].

    Left out of the model: directories (a path is a key of the map of
    files), the encoding of text, and the quoting and line ends of CSV
    text (a file is the list of its records). *)

From Stdlib Require Import ZArith Lia.
From Stdlib Require Import Strings.Ascii Strings.String.
From Stdlib Require Import Floats.PrimFloat Floats.SpecFloat Floats.FloatOps.
From stdpp Require Import gmap strings list pretty.

Open Scope Z_scope.

(* A decimal literal such as 3.21 stands for the nearest float. *)
Set Warnings "-inexact-float".

(** ** Exceptions and outcomes *)

(** The [ValueError]s of this program, by the call that raises them.  The
    message of each is a fixed text around the values recorded here. *)
Inductive value_error :=
| EmptyRange (start stop width : Z)
    (* random.randrange: "empty range for randrange() (start, stop, width)" *)
| CannotConvertNaN
    (* int(float('nan')): "cannot convert float NaN to integer" *)
| CouldNotConvert (text : string)
    (* float(text): "could not convert string to float: text" *)
| HeadersMismatch (existing_headers : list string)
    (* init_csv: f"Headers do not match the existing file: {existing_headers}." *)
| AllScalarValues
    (* pandas.DataFrame: "If using all scalar values, you must pass an index" *)
| ArraysLength
    (* pandas.DataFrame: "All arrays must be of the same length" *).

Inductive exn :=
| ValueError (why : value_error)
| OverflowError                  (* int(float('inf')) *)
| KeyError (key : string)        (* d[key] without the key *)
| IndexError                     (* [][0] *)
| FileNotFoundError (filename : string)
| JSONDecodeError                (* json.load of a text that is no JSON *)
| CalledProcessError (returncode : Z)
| EmptyDataError                 (* pandas.read_csv of a file without a line *).

Inductive outcome (A : Type) :=
| Returned (a : A)
| Raised (e : exn)
| OutOfFuel.
Arguments Returned {A} a.
Arguments Raised {A} e.
Arguments OutOfFuel {A}.

#[global] Instance outcome_ret : MRet outcome := λ A a, Returned a.

#[global] Instance outcome_bind : MBind outcome := λ A B f o,
  match o with
  | Returned a => f a
  | Raised e => Raised e
  | OutOfFuel => OutOfFuel
  end.

(** [l[0]]. *)
Definition first_item {A} (l : list A) : outcome A :=
  match l with
  | x :: _ => Returned x
  | [] => Raised IndexError
  end.

(** ** Numbers *)

(** The float nearest to the decimal [n / 10^k] (ties to the even
    mantissa; a value past the largest finite float is [inf]).  This is
    [float(text)] for a text [d1.d2], where [n] is the number that the
    digits of [d1] and [d2] write in a row and [k] the number of digits
    of [d2]. *)
Definition float_of_decimal (n : Z) (k : nat) : float :=
  match n with
  | Zpos p =>
      SF2Prim (SFdiv prec emax (S754_finite false p 0)
                               (S754_finite false (Z.to_pos (10 ^ Z.of_nat k)) 0))
  | _ => PrimFloat.zero
  end.

(** [int(x)] for a float: the integer towards zero. *)
Definition int_of_float (f : float) : outcome Z :=
  match Prim2SF f with
  | S754_zero _ => Returned 0
  | S754_finite s m e =>
      let magnitude := Z.shiftl (Zpos m) e in
      Returned (if s then - magnitude else magnitude)
  | S754_infinity _ => Raised OverflowError
  | S754_nan => Raised (ValueError CannotConvertNaN)
  end.

(** What [distribution_sample] returns: [float | int]. *)
Inductive number :=
| NInt (z : Z)
| NFloat (f : float).

Definition py_int (x : number) : outcome Z :=
  match x with
  | NInt z => Returned z
  | NFloat f => int_of_float f
  end.

(** ** Text: the pattern and [float] *)

(** [\d]. *)
Definition is_digit (c : ascii) : bool :=
  (48 <=? nat_of_ascii c)%nat && (nat_of_ascii c <=? 57)%nat.

(** The longest run of digits that [s] starts with, and what follows. *)
Fixpoint span_digits (s : string) : string * string :=
  match s with
  | String c s' =>
      if is_digit c then
        let '(d, rest) := span_digits s' in (String c d, rest)
      else (EmptyString, s)
  | EmptyString => (EmptyString, EmptyString)
  end.

(** What follows the point that [s] starts with, if it starts with
    one. *)
Definition after_point (s : string) : option string :=
  match s with
  | String c rest => if decide (c = "."%char) then Some rest else None
  | EmptyString => None
  end.

(** The text that [\d+\.\d+] matches at the start of [s], if it matches
    there.  Both repetitions are greedy; giving back digits of the first
    one never helps, since what would then follow is a digit and not the
    point. *)
Definition match_here (s : string) : option string :=
  let '(d1, r1) := span_digits s in
  if decide (d1 = "") then None
  else
    match after_point r1 with
    | Some rest =>
        let '(d2, _) := span_digits rest in
        if decide (d2 = "") then None else Some (d1 +:+ "." +:+ d2)
    | None => None
    end.

(** [re.findall(r"\d+\.\d+", s)]: the matches from left to right, the
    search for the next one starting behind the last.  [skip] counts the
    characters of the last match that are still to be passed over. *)
Fixpoint findall (skip : nat) (s : string) : list string :=
  match s with
  | EmptyString => []
  | String _ s' =>
      match skip with
      | S n => findall n s'
      | O =>
          match match_here s with
          | Some m => m :: findall (String.length m - 1) s'
          | None => findall 0 s'
          end
      end
  end.

(** The number that a run of digits writes, read from the left onto
    [acc]. *)
Fixpoint digits_value (acc : Z) (s : string) : Z :=
  match s with
  | String c s' => digits_value (10 * acc + (Z.of_nat (nat_of_ascii c) - 48)) s'
  | EmptyString => acc
  end.

(** [float(s)] for a text of the form digits, point, digits.  Python
    reads more formats than this one; the only texts that this program
    passes to [float] are matches of the pattern ([py_float_decimal]
    below), and the model refuses every other text. *)
Definition py_float (s : string) : outcome float :=
  let '(d1, r1) := span_digits s in
  if decide (d1 = "") then Raised (ValueError (CouldNotConvert s))
  else
    match after_point r1 with
    | Some rest =>
        let '(d2, r2) := span_digits rest in
        if decide (d2 = "" ∨ r2 ≠ "") then
          Raised (ValueError (CouldNotConvert s))
        else
          Returned (float_of_decimal (digits_value 0 (d1 +:+ d2))
                                     (String.length d2))
    | None => Raised (ValueError (CouldNotConvert s))
    end.

(** ** Dictionaries *)

(** A Python [dict] with [str] keys: its items in insertion order, no
    key twice.  [d[k] = v] overwrites the value of a key that is there
    and keeps its place, and puts a new key at the end. *)
Definition dict (V : Type) := list (string * V).

Fixpoint dict_get {V} (d : dict V) (k : string) : option V :=
  match d with
  | [] => None
  | (k', v) :: d' => if decide (k' = k) then Some v else dict_get d' k
  end.

Fixpoint dict_set {V} (d : dict V) (k : string) (v : V) : dict V :=
  match d with
  | [] => [(k, v)]
  | (k', v') :: d' =>
      if decide (k' = k) then (k', v) :: d' else (k', v') :: dict_set d' k v
  end.

(** [d[k]]: the value, or [KeyError(k)]. *)
Definition subscript {V} (d : dict V) (k : string) : outcome V :=
  match dict_get d k with
  | Some v => Returned v
  | None => Raised (KeyError k)
  end.

(** ** CSV files and frames *)

(** A field of a CSV file, by the kind of value that was written to
    it. *)
Inductive cell :=
| CStr (s : string)
| CInt (z : Z)
| CFloat (f : float).

(** A CSV file: its records in order (the header line is the first),
    each the list of its fields. *)
Abbreviation csv := (list (list cell)).

(** The values of the dicts that this program builds and writes: a
    number ([dict[str, int | float]], what [sample_and_bench] returns),
    or a list of numbers of one kind (a column). *)
Inductive value :=
| VInt (z : Z)
| VFloat (f : float)
| VInts (zs : list Z)
| VFloats (fs : list float).

(** [len(v)] for a list; a number has none. *)
Definition value_length (v : value) : option nat :=
  match v with
  | VInts zs => Some (length zs)
  | VFloats fs => Some (length fs)
  | VInt _ | VFloat _ => None
  end.

(** The cells of the column that [v] fills in a frame of [n] rows: a list
    gives its items, a number is repeated. *)
Definition column_cells (n : nat) (v : value) : list cell :=
  match v with
  | VInt z => replicate n (CInt z)
  | VFloat f => replicate n (CFloat f)
  | VInts zs => CInt <$> zs
  | VFloats fs => CFloat <$> fs
  end.

(** A [pandas.DataFrame] with the default index: its number of rows, and
    its columns in order, each with its name. *)
Record frame := {
  frame_rows : nat;
  frame_columns : list (string * list cell)
}.

(** [pd.DataFrame(data)] for a dict: one column per key, in the order of
    the keys.  The lists fix the number of rows and must agree on it.  A
    dict that holds numbers and no list gives pandas no index to build
    the rows on, and it raises [ValueError]: "If using all scalar values,
    you must pass an index". *)
Definition DataFrame (data : dict value) : outcome frame :=
  match data with
  | [] => Returned {| frame_rows := 0; frame_columns := [] |}
  | _ =>
      match omap value_length data.*2 with
      | [] => Raised (ValueError AllScalarValues)
      | n :: lengths =>
          if forallb (Nat.eqb n) lengths then
            Returned {| frame_rows := n;
                        frame_columns := prod_map id (column_cells n) <$> data |}
          else Raised (ValueError ArraysLength)
      end
  end.

(** The records that [df.to_csv(f, header=False, index=False)] writes: one
    per row, with the cell of each column in the order of the columns. *)
Definition frame_records (df : frame) : list (list cell) :=
  (λ i, omap (λ column, column.2 !! i) (frame_columns df))
    <$> seq 0 (frame_rows df).

(** ** The world of the process *)

(** [random.randrange] and [numpy.random.lognormal] draw from generators
    whose state is global to the process.  [randbelow n] is the draw that
    [randrange] adds to its start ([Random._randbelow]: for a positive
    [n], a value from [0] to [n - 1]); [np_lognormal mean] is the call
    [np.random.lognormal(mean=np.log(mean) + sigma**2, sigma=sigma)] with
    [sigma = 0.7]. *)
Class RandomSource := {
  rng_state : Type;
  randbelow : Z → rng_state → Z * rng_state;
  np_lognormal : Z → rng_state → float * rng_state;
  randbelow_range : ∀ n s, 0 < n → 0 ≤ (randbelow n s).1 < n
}.

(** What [pandas] leaves to its version: the text of a float field, and
    the names that [read_csv] gives to the columns of a header line (it
    renames a blank name to [Unnamed: i], and a repeated name by a
    number behind it).  A header line of distinct names, none blank,
    names its columns as written. *)
Class Pandas := {
  float_text : float → string;
  column_names : list string → list string;
  column_names_clean : ∀ names,
    NoDup names → "" ∉ names → column_names names = names
}.

(** [config.json] as [json.load] reads it: a dict whose key [benches],
    when it is there, holds a dict from the names of the benchmarks to
    dicts of strings.  This is the format of the file; the other keys of
    the document are not looked at. *)
Definition bench_function_data := dict string.

Record document := {
  benches : option (dict bench_function_data)
}.

Inductive config_file :=
| NoFile
| Malformed
| Document (config : document).

(** The end of a child process: its exit status and what it wrote to its
    standard output; or no executable to start. *)
Inductive completed :=
| Exited (returncode : Z) (stdout : string)
| NoExecutable.

Section Program.
Context {source : RandomSource} {pandas : Pandas}.

Record World := {
  rng : rng_state;
  cwd : string;                  (* Path.cwd() *)
  config_json : config_file;     (* the file config.json in cwd *)
  files : gmap string csv;       (* the CSV files, by path *)
  run_process : list string → string → completed
                                 (* how a child process started with these
                                    arguments in this directory ends *)
}.

Definition set_rng (s : rng_state) (w : World) : World :=
  {| rng := s; cwd := cwd w; config_json := config_json w;
     files := files w; run_process := run_process w |}.

Definition set_files (fs : gmap string csv) (w : World) : World :=
  {| rng := rng w; cwd := cwd w; config_json := config_json w;
     files := fs; run_process := run_process w |}.

(** ** The monad of Python calls *)

Definition Py (A : Type) := World → outcome A * World.

#[global] Instance Py_ret : MRet Py := λ A a w, (Returned a, w).

#[global] Instance Py_bind : MBind Py := λ A B f m w,
  match m w with
  | (Returned a, w') => f a w'
  | (Raised e, w') => (Raised e, w')
  | (OutOfFuel, w') => (OutOfFuel, w')
  end.

Definition raise {A} (e : exn) : Py A := λ w, (Raised e, w).

Definition out_of_fuel {A} : Py A := λ w, (OutOfFuel, w).

(** A call that does not touch the world. *)
Definition pure {A} (o : outcome A) : Py A := λ w, (o, w).

(** ** sample

<<
def sample(min_value: int, max_value: int, mean: int = 0) -> int:
    def distribution_sample(use_uniform: bool = True) -> float | int:
        if use_uniform:
            return random.randrange(min_value, max_value)
        else:
            sigma = 0.7
            return np.random.lognormal(mean=np.log(mean) + sigma**2, sigma=sigma)

    value = None
    while value is None:
        value = int(distribution_sample())
    return value
>> *)

(** [random.randrange(start, stop)]. *)
Definition randrange (start stop : Z) : Py Z := λ w,
  let width := stop - start in
  if decide (0 < width) then
    let '(r, s) := randbelow width (rng w) in
    (Returned (start + r), set_rng s w)
  else (Raised (ValueError (EmptyRange start stop width)), w).

Definition lognormal (mean : Z) : Py float := λ w,
  let '(x, s) := np_lognormal mean (rng w) in (Returned x, set_rng s w).

Definition distribution_sample (min_value max_value mean : Z)
    (use_uniform : bool) : Py number :=
  if use_uniform then
    v ← randrange min_value max_value; mret (NInt v)
  else
    x ← lognormal mean; mret (NFloat x).

(** The loop of [sample], entered with [value].  [fuel] bounds the
    number of times that its body runs. *)
Fixpoint sample_loop (fuel : nat) (min_value max_value mean : Z)
    (value : option Z) : Py Z :=
  match value with
  | Some v => mret v
  | None =>
      match fuel with
      | O => out_of_fuel
      | S fuel' =>
          x ← distribution_sample min_value max_value mean true;
          v ← pure (py_int x);
          sample_loop fuel' min_value max_value mean (Some v)
      end
  end.

Definition sample (fuel : nat) (min_value max_value mean : Z) : Py Z :=
  sample_loop fuel min_value max_value mean None.

(** ** bench

<<
def bench(bench_function: str, parameter: int, cli_repo: Path) -> float:
    stdout = subprocess.check_output(
        args=["cargo", "run", "--release", "bench", bench_function, f"{parameter}"],
        cwd=cli_repo,
        stderr=subprocess.DEVNULL,
    )
    pattern = r"\d+\.\d+"
    time_taken = re.findall(pattern, stdout.decode())[0]
    return float(time_taken)
>> *)

(** [subprocess.check_output(args=args, cwd=cwd, stderr=DEVNULL)],
    decoded. *)
Definition check_output (args : list string) (cwd : string) : Py string := λ w,
  match run_process w args cwd with
  | Exited returncode stdout =>
      if decide (returncode = 0) then (Returned stdout, w)
      else (Raised (CalledProcessError returncode), w)
  | NoExecutable => (Raised (FileNotFoundError (default "" (head args))), w)
  end.

Definition pattern_findall (text : string) : list string := findall 0 text.

Definition bench (bench_function : string) (parameter : Z)
    (cli_repo : string) : Py float :=
  stdout ← check_output
    ["cargo"; "run"; "--release"; "bench"; bench_function; pretty parameter]
    cli_repo;
  time_taken ← pure (first_item (pattern_findall stdout));
  pure (py_float time_taken).

(** ** load_bench_function_data

<<
def load_bench_function_data(bench_function: str) -> dict[str, Any]:
    config_file_path = Path.cwd() / "config.json"
    with open(config_file_path, "r") as f:
        config = json.load(f)
        data = config["benches"][bench_function]
    return data
>> *)

(** [dir / name]. *)
Definition path_join (dir name : string) : string :=
  if decide (dir = "/") then "/" +:+ name else dir +:+ "/" +:+ name.

Definition load_bench_function_data (bench_function : string)
    : Py bench_function_data := λ w,
  let config_file_path := path_join (cwd w) "config.json" in
  match config_json w with
  | NoFile => (Raised (FileNotFoundError config_file_path), w)
  | Malformed => (Raised JSONDecodeError, w)
  | Document config =>
      (table ← (match benches config with
                | Some table => Returned table
                | None => Raised (KeyError "benches")
                end);
       subscript table bench_function, w)
  end.

(** [config.json] names the columns of [bench_function]: its entry
    under [benches] maps [parameter] and [output] to these names. *)
Definition configured (w : World) (bench_function : string)
    (parameter_name output_name : string) : Prop :=
  ∃ config table data,
    config_json w = Document config
    ∧ benches config = Some table
    ∧ dict_get table bench_function = Some data
    ∧ dict_get data "parameter" = Some parameter_name
    ∧ dict_get data "output" = Some output_name.

(** ** sample_and_bench

<<
def sample_and_bench(cli_repo, bench_function, min_value, max_value
                     ) -> dict[str, int | float]:
    parameter = sample(min_value, max_value)
    output = bench(bench_function, parameter, cli_repo)
    bench_data = load_bench_function_data(bench_function)
    return {bench_data["parameter"]: parameter, bench_data["output"]: output}
>> *)

Definition sample_and_bench (fuel : nat) (cli_repo bench_function : string)
    (min_value max_value : Z) : Py (dict value) :=
  parameter ← sample fuel min_value max_value 0;
  output ← bench bench_function parameter cli_repo;
  bench_data ← load_bench_function_data bench_function;
  parameter_key ← pure (subscript bench_data "parameter");
  output_key ← pure (subscript bench_data "output");
  mret (dict_set (dict_set [] parameter_key (VInt parameter))
                 output_key (VFloat output)).

(** ** init_csv

<<
def init_csv(csv_file_path: Path, bench_function: str):
    bench_function_data = load_bench_function_data(bench_function)
    headers = [bench_function_data["parameter"], bench_function_data["output"]]
    if csv_file_path.exists():
        existing_headers = pd.read_csv(csv_file_path, nrows=0).columns.tolist()
        if set(headers) != set(existing_headers):
            raise ValueError(
                f"Headers do not match the existing file: {existing_headers}."
            )
    else:
        df = pd.DataFrame(columns=headers)
        df.to_csv(csv_file_path, index=False)
>> *)

Definition path_exists (path : string) : Py bool := λ w,
  (Returned (bool_decide (is_Some (files w !! path))), w).

(** The text of a field. *)
Definition cell_text (c : cell) : string :=
  match c with
  | CStr s => s
  | CInt z => pretty z
  | CFloat f => float_text f
  end.

(** [pd.read_csv(path, nrows=0).columns.tolist()]: the names of the
    columns, from the first record of the file. *)
Definition read_csv_columns (path : string) : Py (list string) := λ w,
  match files w !! path with
  | None => (Raised (FileNotFoundError path), w)
  | Some [] => (Raised EmptyDataError, w)
  | Some (header :: _) => (Returned (column_names (cell_text <$> header)), w)
  end.

(** [pd.DataFrame(columns=headers).to_csv(path, index=False)]: the file
    is written anew and holds the header line alone. *)
Definition to_csv_empty_frame (headers : list string) (path : string)
    : Py unit := λ w,
  (Returned (), set_files (<[path := [CStr <$> headers]]> (files w)) w).

Definition init_csv (csv_file_path bench_function : string) : Py unit :=
  bench_function_data ← load_bench_function_data bench_function;
  parameter_name ← pure (subscript bench_function_data "parameter");
  output_name ← pure (subscript bench_function_data "output");
  let headers := [parameter_name; output_name] in
  file_exists ← path_exists csv_file_path;
  if file_exists : bool then
    existing_headers ← read_csv_columns csv_file_path;
    if decide ((list_to_set headers : gset string)
               ≠ list_to_set existing_headers) then
      raise (ValueError (HeadersMismatch existing_headers))
    else mret ()
  else
    to_csv_empty_frame headers csv_file_path.

(** ** write_into_csv

<<
def write_into_csv(data: dict, csv_file_path: Path):
    df = pd.DataFrame(data)
    with open(csv_file_path, "a") as f:
        df.to_csv(f, header=False, index=False)
>> *)

(** [with open(path, "a") as f: df.to_csv(f, header=False, index=False)]:
    the records of the frame go behind those of the file, which is
    created when it is not there. *)
Definition to_csv_append (df : frame) (path : string) : Py unit := λ w,
  (Returned (),
   set_files (<[path := default [] (files w !! path) ++ frame_records df]>
                (files w)) w).

Definition write_into_csv (data : dict value) (csv_file_path : string)
    : Py unit :=
  df ← pure (DataFrame data);
  to_csv_append df csv_file_path.

(** ** Reading a file by its header line *)


End Program.

(** ** create_repo_from_commmit and build_release

<<
def create_repo_from_commmit(commit: str, commit_folder: Path):
    subprocess.run(
        ["git", "worktree", "add", "-f", str(commit_folder), commit], check=True
    )

def build_release(cli_repo: Path):
    subprocess.run(["cargo", "build", "--release"], cwd=cli_repo, check=True)
>> *)

Section Processes.
Context {source : RandomSource}.

(** [subprocess.run(args, cwd=dir, check=True)], its result dropped.  As
    for [check_output], what the child does to the files is outside the
    model: the world records how it ends. *)
Definition run_checked (args : list string) (dir : string) : Py unit := λ w,
  match run_process w args dir with
  | Exited returncode _ =>
      if decide (returncode = 0) then (Returned (), w)
      else (Raised (CalledProcessError returncode), w)
  | NoExecutable => (Raised (FileNotFoundError (default "" (head args))), w)
  end.

(** The child starts in the working directory of the process. *)
Definition create_repo_from_commmit (commit commit_folder : string) : Py unit :=
  λ w, run_checked ["git"; "worktree"; "add"; "-f"; commit_folder; commit]
         (cwd w) w.

Definition build_release (cli_repo : string) : Py unit :=
  run_checked ["cargo"; "build"; "--release"] cli_repo.

End Processes.

(** ** Paths

    A [pathlib] path on a POSIX system: its root (none, [/] or [//]) and
    its components.  Parsing a text splits it at the slashes and drops
    the empty components and the components [.]; the components [..]
    stay. *)
Record posix_path := {
  root : string;
  parts : list string
}.

Definition starts_with_slash (s : string) : bool :=
  match s with
  | String c _ => bool_decide (c = "/"%char)
  | EmptyString => false
  end.

Definition without_first (s : string) : string :=
  match s with
  | String _ s' => s'
  | EmptyString => EmptyString
  end.

(** [posixpath.splitroot]: one slash in front, or three and more, give
    the root [/]; exactly two give the root [//]. *)
Definition splitroot (s : string) : string :=
  if starts_with_slash s then
    if starts_with_slash (without_first s)
       && negb (starts_with_slash (without_first (without_first s)))
    then "//" else "/"
  else "".

(** [s.split("/")]. *)
Fixpoint split_slash (s : string) : list string :=
  match s with
  | EmptyString => [EmptyString]
  | String c s' =>
      if decide (c = "/"%char) then EmptyString :: split_slash s'
      else
        match split_slash s' with
        | x :: xs => String c x :: xs
        | [] => [String c EmptyString]
        end
  end.

Definition components (s : string) : list string :=
  filter (λ x, x ≠ "" ∧ x ≠ ".") (split_slash s).

(** [PurePosixPath(s)]. *)
Definition parse_path (s : string) : posix_path :=
  {| root := splitroot s; parts := components s |}.

(** [p / s]: a text that starts with a slash replaces the path; any
    other text adds its components. *)
Definition path_div (p : posix_path) (s : string) : posix_path :=
  if starts_with_slash s then parse_path s
  else {| root := root p; parts := parts p ++ components s |}.

(** ** get_csv_file

<<
def get_csv_file(commit: str, bench_function: str) -> Path:
    csv_file_path = Path.cwd() / "data" / bench_function / f"{commit}.csv"
    return csv_file_path
>> *)

Section Paths.
Context {source : RandomSource}.

Definition get_csv_file (commit bench_function : string) : Py posix_path := λ w,
  let csv_file_path :=
    path_div (path_div (path_div (parse_path (cwd w)) "data") bench_function)
             (commit +:+ ".csv") in
  (Returned csv_file_path, w).

End Paths.

(** A name without a slash in it. *)
Fixpoint no_slash (s : string) : bool :=
  match s with
  | String c s' => negb (bool_decide (c = "/"%char)) && no_slash s'
  | EmptyString => true
  end.

(** A name that is one component of a path. *)
Definition plain_name (s : string) : Prop :=
  s ≠ "" ∧ s ≠ "." ∧ no_slash s = true.

(** The text holds a point. *)
Fixpoint has_point (s : string) : bool :=
  match s with
  | String c s' => bool_decide (c = "."%char) || has_point s'
  | EmptyString => false
  end.

(** ** The specification's names for failures

    The specification (its section on error handling) names four kinds
    of failure.  In Python they are these exceptions. *)
Inductive error_kind :=
| ProcessFailure
| ParseFailure
| ConfigKeyMissing
| SchemaMismatch.

(** The file name ends in [/config.json]. *)
Definition names_config_file (filename : string) : bool :=
  let n := String.length filename in
  bool_decide (substring (n - 12) 12 filename = "/config.json").

Definition kind_of (e : exn) : option error_kind :=
  match e with
  | CalledProcessError _ => Some ProcessFailure
  | IndexError => Some ParseFailure
  | KeyError _ | JSONDecodeError => Some ConfigKeyMissing
  | FileNotFoundError filename =>
      if names_config_file filename then Some ConfigKeyMissing else None
  | ValueError (HeadersMismatch _) => Some SchemaMismatch
  | _ => None
  end.

(** ** The texts the specification speaks of

    The specification describes what the parser looks for in its own
    words: a substring of the form digits, point, digits, and the first
    such substring.  These definitions follow those words; the theorems
    on [bench] compare them with [pattern_findall]. *)

Fixpoint all_digits (s : string) : bool :=
  match s with
  | String c s' => is_digit c && all_digits s'
  | EmptyString => true
  end.

Definition digit_run (s : string) : Prop := s ≠ "" ∧ all_digits s = true.

Definition decimal_text (m : string) : Prop :=
  ∃ d1 d2, digit_run d1 ∧ digit_run d2 ∧ m = d1 +:+ "." +:+ d2.

(** [m] is the substring of [text] that starts after [i] characters. *)
Definition occurs_at (i : nat) (m text : string) : Prop :=
  ∃ pre post, String.length pre = i ∧ text = pre +:+ m +:+ post.


(** ** A generator and a pandas to run the model with *)

(** A linear congruential generator; [randbelow n] reduces its state
    modulo [n]. *)
Definition lcg_next (s : Z) : Z := (1103515245 * s + 12345) mod 2 ^ 31.

Definition lcg_source : RandomSource.
Proof.
  refine {|
    rng_state := Z;
    randbelow n s := (s mod n, lcg_next s);
    np_lognormal mean s :=
      (SF2Prim (S754_finite false (Z.to_pos (1 + s mod 7)) 0), lcg_next s)
  |}.
  intros n s Hn. simpl. apply Z.mod_pos_bound, Hn.
Defined.

(** The text of a float: the sign, the integer part, a point, and the
    fewest decimals (one at least, twenty at most) that read back as the
    same float. *)
Definition round_half_even (a b : Z) : Z :=
  let q := a / b in
  let r := a mod b in
  if 2 * r <? b then q
  else if b <? 2 * r then q + 1
  else if Z.even q then q else q + 1.

Definition scaled_mantissa (m : positive) (e : Z) (k : nat) : Z :=
  if 0 <=? e then Zpos m * 2 ^ e * 10 ^ Z.of_nat k
  else round_half_even (Zpos m * 10 ^ Z.of_nat k) (2 ^ (- e)).

Fixpoint fewest_decimals (fuel k : nat) (m : positive) (e : Z) : nat :=
  match fuel with
  | O => k
  | S fuel' =>
      if PrimFloat.eqb (float_of_decimal (scaled_mantissa m e k) k)
                       (SF2Prim (S754_finite false m e))
      then k else fewest_decimals fuel' (S k) m e
  end.

Definition positional (q : Z) (k : nat) : string :=
  let decimals := pretty (q mod 10 ^ Z.of_nat k) in
  pretty (q / 10 ^ Z.of_nat k) +:+ "." +:+
  string_of_list_ascii (replicate (k - String.length decimals) "0"%char) +:+
  decimals.

Definition positional_text (f : float) : string :=
  match Prim2SF f with
  | S754_zero s => if s then "-0.0" else "0.0"
  | S754_infinity s => if s then "-inf" else "inf"
  | S754_nan => ""
  | S754_finite s m e =>
      let k := fewest_decimals 20 1 m e in
      (if s then "-" else "") +:+ positional (scaled_mantissa m e k) k
  end.

(** The names of the columns of a header line: a blank name becomes
    [Unnamed: i], and a name seen [k] times before gets [.k] behind
    it. *)
Fixpoint name_blanks (i : nat) (names : list string) : list string :=
  match names with
  | [] => []
  | name :: names' =>
      (if decide (name = "") then "Unnamed: " +:+ pretty i else name)
        :: name_blanks (S i) names'
  end.

Fixpoint number_repeats (seen names : list string) : list string :=
  match names with
  | [] => []
  | name :: names' =>
      let k := length (filter (λ x, x = name) seen) in
      (if decide (k = 0%nat) then name else name +:+ "." +:+ pretty k)
        :: number_repeats (name :: seen) names'
  end.

Definition reference_column_names (names : list string) : list string :=
  number_repeats [] (name_blanks 0 names).

Definition reference_pandas : Pandas.
Proof.
  refine {|
    float_text := positional_text;
    column_names := reference_column_names
  |}.
  intros names Hnd Hblank. unfold reference_column_names.
  assert (∀ i, name_blanks i names = names) as ->.
  { clear Hnd. revert Hblank.
    induction names as [|name names IH]; intros Hblank i; [done|].
    apply not_elem_of_cons in Hblank as [Hne Hrest]. simpl.
    rewrite decide_False by done. by rewrite IH. }
  clear Hblank.
  assert (∀ x, x ∈ names → x ∉ @nil string) as Hseen
    by (intros x _; apply not_elem_of_nil).
  revert Hseen. generalize (@nil string).
  induction Hnd as [|name names Hfresh Hnd IH]; intros seen Hseen; [done|].
  simpl.
  assert (filter (λ x, x = name) seen = []) as ->.
  { apply elem_of_nil_inv. intros x [-> Hin]%list_elem_of_filter.
    apply (Hseen name); [left | done]. }
  simpl. f_equal. apply IH.
  intros x Hx [->|Hin]%elem_of_cons; [done|].
  apply (Hseen x); [by right | done].
Defined.

(** ** A world to run the model in *)

(** The configuration of the specification's example: the benchmark
    [sort_vec] with the columns [size] and [time_ms]. *)
Definition example_config : config_file :=
  Document {| benches :=
    Some [("sort_vec", [("parameter", "size"); ("output", "time_ms")])] |}.

(** A world with the generator above, in the directory [/work], where
    every child process prints [stdout] and exits with status 0. *)
Definition example_world (config : config_file) (fs : gmap string csv)
    (stdout : string) : @World lcg_source :=
  @Build_World lcg_source 2024 "/work" config fs (λ _ _, Exited 0 stdout).

Definition example_csv_path : string := "/work/data/sort_vec/0a1b2c.csv".

(** A configuration that gives both columns of [sort_vec] the name
    [value], and one whose entry for [sort_vec] has no output name. *)
Definition example_same_name_config : config_file :=
  Document {| benches :=
    Some [("sort_vec", [("parameter", "value"); ("output", "value")])] |}.

Definition example_partial_config : config_file :=
  Document {| benches := Some [("sort_vec", [("parameter", "size")])] |}.

(** The world of the example where every child process ends as
    [ending]. *)
Definition example_world_ending (config : config_file) (ending : completed)
    : @World lcg_source :=
  @Build_World lcg_source 2024 "/work" config ∅ (λ _ _, ending).

(** * Properties *)

(** ** Text *)

Lemma app_cons (c : ascii) (s t : string) :
  String c s +:+ t = String c (s +:+ t).
Proof. reflexivity. Qed.

Lemma app_empty_l (t : string) : "" +:+ t = t.
Proof. reflexivity. Qed.

Lemma app_assoc_string (s t u : string) : (s +:+ t) +:+ u = s +:+ t +:+ u.
Proof.
  induction s as [|c s IH]; [done|]. by rewrite !app_cons, IH.
Qed.

Lemma length_app_string (s t : string) :
  String.length (s +:+ t) = (String.length s + String.length t)%nat.
Proof.
  induction s as [|c s IH]; [done|]. rewrite app_cons. simpl. by rewrite IH.
Qed.

Lemma length_zero_string (s : string) : String.length s = 0%nat → s = "".
Proof. by destruct s. Qed.

(** The run that [span_digits] cuts off is made of digits, and what it
    leaves does not start with one. *)
Lemma span_digits_sound (s d r : string) :
  span_digits s = (d, r) →
  s = d +:+ r ∧ all_digits d = true ∧ span_digits r = ("", r).
Proof.
  revert d r. induction s as [|c s IH]; intros d r Hspan; simpl in Hspan.
  - by injection Hspan as <- <-.
  - destruct (is_digit c) eqn:Hc.
    + destruct (span_digits s) as [d' r'] eqn:Hs.
      injection Hspan as <- <-.
      destruct (IH d' r' eq_refl) as (-> & Hd & Hr).
      rewrite app_cons. simpl. by rewrite Hc, Hd.
    + injection Hspan as <- <-. rewrite app_empty_l. simpl. by rewrite Hc.
Qed.

(** A run of digits in front is cut off whole, together with the digits
    that follow it. *)
Lemma span_digits_app (d r : string) :
  all_digits d = true →
  span_digits (d +:+ r) = (d +:+ (span_digits r).1, (span_digits r).2).
Proof.
  induction d as [|c d IH]; intros Hd.
  - rewrite !app_empty_l. by destruct (span_digits r).
  - simpl in Hd. apply andb_true_iff in Hd as [Hc Hd].
    rewrite app_cons. simpl. rewrite Hc, (IH Hd). reflexivity.
Qed.

Lemma span_digits_point (rest : string) :
  span_digits (String "." rest) = ("", String "." rest).
Proof. reflexivity. Qed.

Lemma app_empty_r (s : string) : s +:+ "" = s.
Proof. induction s as [|c s IH]; [done|]. by rewrite app_cons, IH. Qed.


(** What [match_here] finds is a text of the form, at the start. *)
Lemma match_here_sound (s m : string) :
  match_here s = Some m → decimal_text m ∧ ∃ post, s = m +:+ post.
Proof.
  unfold match_here. destruct (span_digits s) as [d1 r1] eqn:H1.
  destruct (decide (d1 = "")) as [|Hd1]; [done|].
  destruct r1 as [|c rest]; [done|]. simpl.
  destruct (decide (c = "."%char)) as [->|]; [|done].
  destruct (span_digits rest) as [d2 r2] eqn:H2.
  destruct (decide (d2 = "")) as [|Hd2]; [done|]. intros [= <-].
  apply span_digits_sound in H1 as (-> & Hdigits1 & _).
  apply span_digits_sound in H2 as (-> & Hdigits2 & _).
  split.
  - by exists d1, d2.
  - exists r2. by rewrite !app_assoc_string.
Qed.



Lemma occurs_at_zero (m text : string) :
  occurs_at 0 m text ↔ ∃ post, text = m +:+ post.
Proof.
  split.
  - intros (pre & post & Hlen%length_zero_string & ->). subst pre. by exists post.
  - intros [post ->]. by exists "", post.
Qed.

Lemma occurs_at_succ (j : nat) (c : ascii) (m text : string) :
  occurs_at (S j) m (String c text) ↔ occurs_at j m text.
Proof.
  split.
  - intros (pre & post & Hlen & Htext). destruct pre as [|c' pre]; [done|].
    rewrite app_cons in Htext. injection Htext as <- ->.
    exists pre, post. split; [|done]. simpl in Hlen. lia.
  - intros (pre & post & <- & ->). by exists (String c pre), post.
Qed.


(** What [findall] starts with is a substring of the form. *)
Lemma findall_head_sound (text m : string) (rest : list string) :
  findall 0 text = m :: rest → decimal_text m ∧ ∃ j, occurs_at j m text.
Proof.
  induction text as [|c text IH]; [done|]. simpl.
  destruct (match_here (String c text)) as [m0|] eqn:Hmatch.
  - intros [= -> _]. destruct (match_here_sound _ _ Hmatch) as [Hm Hpost].
    split; [done|]. exists 0%nat. by apply occurs_at_zero.
  - intros Hfind. destruct (IH Hfind) as (Hm & j & Hocc).
    split; [done|]. exists (S j). by apply occurs_at_succ.
Qed.

(** [float] reads every text of the form. *)
Lemma py_float_decimal (m : string) :
  decimal_text m → ∃ x, py_float m = Returned x.
Proof.
  intros (d1 & d2 & [Hn1 Hd1] & [Hn2 Hd2] & ->).
  eexists. unfold py_float. rewrite (span_digits_app d1) by done.
  change ("." +:+ d2) with (String "." d2).
  rewrite span_digits_point. simpl. rewrite app_empty_r.
  rewrite decide_False by done.
  rewrite <- (app_empty_r d2) at 1. rewrite (span_digits_app d2) by done.
  simpl. rewrite app_empty_r.
  by rewrite decide_False by (intros [?|?]; done).
Qed.


Section Properties.
Context {source : RandomSource} {pandas : Pandas}.

(** ** Running a sequence of calls *)

Lemma bind_returned {A B} (m : Py A) (f : A → Py B) (w w' : World) (a : A) :
  m w = (Returned a, w') → (m ≫= f) w = f a w'.
Proof. intros Hm. unfold mbind, Py_bind. by rewrite Hm. Qed.

Lemma bind_pure_returned {A B} (o : outcome A) (f : A → Py B) (w : World) (a : A) :
  o = Returned a → (pure o ≫= f) w = f a w.
Proof. by intros ->. Qed.

(** ** sample *)

Lemma randrange_draws (start stop : Z) (w : World) :
  start < stop →
  let draw := randbelow (stop - start) (rng w) in
  randrange start stop w = (Returned (start + draw.1), set_rng draw.2 w)
  ∧ start ≤ start + draw.1 < stop.
Proof.
  intros Hlt draw. unfold randrange.
  rewrite decide_True by lia. fold draw.
  pose proof (randbelow_range (stop - start) (rng w)) as Hrange.
  fold draw in Hrange. destruct draw as [r s]. simpl in *.
  split; [done | lia].
Qed.

(** The body of the loop runs once: the value that [int] returns is not
    [None]. *)
Lemma sample_draws (fuel : nat) (min_value max_value mean : Z) (w : World) :
  min_value < max_value →
  let draw := randbelow (max_value - min_value) (rng w) in
  sample (S fuel) min_value max_value mean w
    = (Returned (min_value + draw.1), set_rng draw.2 w)
  ∧ min_value ≤ min_value + draw.1 < max_value.
Proof.
  intros Hlt draw.
  destruct (randrange_draws min_value max_value w Hlt) as [Hdraw Hrange].
  split; [|exact Hrange].
  unfold sample. simpl. unfold distribution_sample.
  erewrite bind_returned; last by erewrite bind_returned.
  simpl. by destruct fuel.
Qed.

(** C2.  For [min_value < max_value], [sample] returns: the body of its
    loop runs once, so any positive budget of iterations is enough.  It
    draws once from the generator, and the integer [v] that it returns
    satisfies [min_value <= v < max_value]. *)
Theorem sample_in_range (fuel : nat) (min_value max_value mean : Z) (w : World) :
  min_value < max_value →
  ∃ v s,
    sample (S fuel) min_value max_value mean w = (Returned v, set_rng s w)
    ∧ min_value ≤ v < max_value.
Proof.
  intros Hlt. eexists _, _. by apply sample_draws.
Qed.

(** Without [min_value < max_value] there is nothing to draw from:
    [random.randrange] raises [ValueError] and [sample] with it. *)
Lemma sample_empty_range (fuel : nat) (min_value max_value mean : Z) (w : World) :
  max_value ≤ min_value →
  sample (S fuel) min_value max_value mean w
  = (Raised (ValueError (EmptyRange min_value max_value
                           (max_value - min_value))), w).
Proof.
  intros Hle. unfold sample. simpl. unfold distribution_sample, randrange.
  unfold mbind, Py_bind. by rewrite decide_False by lia.
Qed.

(** ** load_bench_function_data *)

Lemma load_configured (w : World) (bench_function p o : string) :
  configured w bench_function p o →
  ∃ data,
    load_bench_function_data bench_function w = (Returned data, w)
    ∧ subscript data "parameter" = Returned p
    ∧ subscript data "output" = Returned o.
Proof.
  intros (config & table & data & Hfile & Htable & Hdata & Hp & Ho).
  exists data. unfold load_bench_function_data, subscript.
  rewrite Hfile, Htable, Hp, Ho. simpl. unfold subscript. by rewrite Hdata.
Qed.

Lemma names_config_file_join (dir : string) :
  names_config_file (path_join dir "config.json") = true.
Proof.
  unfold names_config_file, path_join.
  destruct (decide (dir = "/")) as [->|_]; [done|].
  apply bool_decide_eq_true.
  induction dir as [|c dir IH]; [done|].
  rewrite app_cons. cbn [String.length].
  rewrite length_app_string in *. simpl String.length in *.
  replace (S (String.length dir + 12) - 12)%nat with (S (String.length dir)) by lia.
  replace (String.length dir + 12 - 12)%nat with (String.length dir) in IH by lia.
  exact IH.
Qed.

(** C9.  When [config.json] is not in the working directory,
    [load_bench_function_data] raises [FileNotFoundError] for that path;
    when the name of the benchmark is not a key of [benches], it raises
    [KeyError] for the name.  Both are failures of the kind
    ConfigKeyMissing; nothing is returned, no partial or default
    configuration either, and the world is as before. *)
Theorem load_bench_function_data_missing (bench_function : string) (w : World) :
  (config_json w = NoFile →
   ∃ e, load_bench_function_data bench_function w = (Raised e, w)
        ∧ e = FileNotFoundError (path_join (cwd w) "config.json")
        ∧ kind_of e = Some ConfigKeyMissing)
  ∧ (∀ config table,
       config_json w = Document config →
       benches config = Some table →
       dict_get table bench_function = None →
       ∃ e, load_bench_function_data bench_function w = (Raised e, w)
            ∧ e = KeyError bench_function
            ∧ kind_of e = Some ConfigKeyMissing).
Proof.
  split.
  - intros Hfile. eexists. split; [|split; [reflexivity|]].
    + unfold load_bench_function_data. by rewrite Hfile.
    + simpl. by rewrite names_config_file_join.
  - intros config table Hfile Htable Hname. eexists. split; [|done].
    unfold load_bench_function_data. rewrite Hfile, Htable. simpl.
    unfold subscript. by rewrite Hname.
Qed.

(** ** init_csv *)

(** [init_csv] behind the lookups in the configuration. *)
Lemma init_csv_configured (csv_file_path bench_function p o : string) (w : World) :
  configured w bench_function p o →
  init_csv csv_file_path bench_function w =
    match files w !! csv_file_path with
    | Some _ =>
        (existing_headers ← read_csv_columns csv_file_path;
         if decide ((list_to_set [p; o] : gset string)
                    ≠ list_to_set existing_headers) then
           raise (ValueError (HeadersMismatch existing_headers))
         else mret ()) w
    | None => to_csv_empty_frame [p; o] csv_file_path w
    end.
Proof.
  intros (data & Hload & Hp & Ho)%load_configured. unfold init_csv.
  erewrite bind_returned by exact Hload.
  rewrite (bind_pure_returned _ _ _ _ Hp), (bind_pure_returned _ _ _ _ Ho).
  erewrite bind_returned by reflexivity.
  by destruct (files w !! csv_file_path).
Qed.









(** ** bench *)

(** [bench] when the child process exits with status 0: the world is not
    touched, and what is returned depends on the output alone. *)
Lemma bench_exited (bench_function cli_repo stdout : string) (parameter : Z)
    (w : World) :
  run_process w
    ["cargo"; "run"; "--release"; "bench"; bench_function; pretty parameter]
    cli_repo = Exited 0 stdout →
  bench bench_function parameter cli_repo w =
    (time_taken ← first_item (pattern_findall stdout); py_float time_taken, w).
Proof.
  intros Hrun. unfold bench.
  erewrite bind_returned; last first.
  { unfold check_output. rewrite Hrun. by rewrite decide_True. }
  destruct (first_item (pattern_findall stdout)) as [time_taken| |]; done.
Qed.



(** ** sample_and_bench *)

(** C1.  With the entry [{"parameter": "size", "output": "time_ms"}] for
    the function in [config.json], a benchmark process that prints
    [elapsed: 3.21s] whatever its arguments, and [min_value < max_value],
    [sample_and_bench] returns the dict [{"size": p, "time_ms": 3.21}]
    for an integer [p] with [min_value <= p < max_value]. *)
Theorem sample_and_bench_end_to_end (fuel : nat) (cli_repo bench_function : string)
    (min_value max_value : Z) (w : World) :
  configured w bench_function "size" "time_ms" →
  (∀ args dir, run_process w args dir = Exited 0 "elapsed: 3.21s") →
  min_value < max_value →
  ∃ p s,
    sample_and_bench (S fuel) cli_repo bench_function min_value max_value w
      = (Returned [("size", VInt p); ("time_ms", VFloat 3.21)], set_rng s w)
    ∧ min_value ≤ p < max_value.
Proof.
  intros Hconfig Hrun Hlt.
  destruct (sample_draws fuel min_value max_value 0 w Hlt) as [Hsample Hrange].
  eexists _, _. split; [|exact Hrange].
  destruct (load_configured (set_rng
              (randbelow (max_value - min_value) (rng w)).2 w)
              bench_function "size" "time_ms")
    as (data & Hload & Hp & Ho); [exact Hconfig|].
  unfold sample_and_bench.
  erewrite bind_returned by exact Hsample.
  erewrite bind_returned; last first.
  { rewrite (bench_exited _ _ "elapsed: 3.21s") by apply Hrun. reflexivity. }
  erewrite bind_returned by exact Hload.
  rewrite (bind_pure_returned _ _ _ _ Hp), (bind_pure_returned _ _ _ _ Ho).
  reflexivity.
Qed.

(** ** write_into_csv *)

Lemma column_cells_length (n : nat) (v : value) :
  value_length v = Some n → length (column_cells n v) = n.
Proof.
  destruct v as [z|f|zs|fs]; simpl; intros [= <-]; by rewrite length_fmap.
Qed.

(** The records of a frame of two columns: the rows, each with the cell
    of the first column and then the cell of the second. *)
Lemma frame_records_two_columns (k1 k2 : string) (c1 c2 : list cell) :
  length c1 = length c2 →
  frame_records
    {| frame_rows := length c1; frame_columns := [(k1, c1); (k2, c2)] |}
  = zip_with (λ a b, [a; b]) c1 c2.
Proof.
  unfold frame_records. simpl. revert c2.
  induction c1 as [|a c1 IH]; intros [|b c2] Hlen; try done.
  simpl. f_equal. rewrite <- fmap_S_seq, <- list_fmap_compose.
  rewrite <- (IH c2) by (simpl in Hlen; lia). done.
Qed.

(** [write_into_csv] for a dict of two columns of [n] rows: the rows go
    behind the records of the file, and each has the value of the first
    key and then the value of the second. *)
Lemma write_into_csv_two_columns (csv_file_path k1 k2 : string)
    (v1 v2 : value) (n : nat) (w : World) :
  value_length v1 = Some n →
  value_length v2 = Some n →
  write_into_csv [(k1, v1); (k2, v2)] csv_file_path w =
    (Returned (),
     set_files (<[csv_file_path :=
                    default [] (files w !! csv_file_path)
                    ++ zip_with (λ a b, [a; b])
                         (column_cells n v1) (column_cells n v2)]> (files w)) w).
Proof.
  intros Hv1 Hv2. unfold write_into_csv, DataFrame. simpl.
  rewrite Hv1, Hv2. simpl. rewrite Nat.eqb_refl. simpl.
  unfold to_csv_append.
  rewrite <- (frame_records_two_columns k1 k2)
    by (by rewrite !column_cells_length).
  by rewrite column_cells_length.
Qed.

(** C3, on the code.  A record whose values are the numbers themselves,
    as [sample_and_bench] returns it, is refused by [pd.DataFrame] before
    the file is opened: [write_into_csv] raises [ValueError] and the
    world is as it was, so the file keeps its header line and gets no
    record.  This holds for the first record as for the second. *)
Theorem write_into_csv_record_of_numbers (csv_file_path p o : string)
    (x : Z) (y : float) (w : World) :
  write_into_csv [(p, VInt x); (o, VFloat y)] csv_file_path w
  = (Raised (ValueError AllScalarValues), w).
Proof. reflexivity. Qed.

(** With the two records given as columns of one row each, the two calls
    leave the header line, then the first record, then the second. *)
Lemma write_into_csv_twice_columns (csv_file_path p o : string)
    (x1 x2 : Z) (y1 y2 : float) (header : list cell) (w : World) :
  files w !! csv_file_path = Some [header] →
  ∃ w',
    (write_into_csv [(p, VInts [x1]); (o, VFloats [y1])] csv_file_path
       ≫= λ _, write_into_csv [(p, VInts [x2]); (o, VFloats [y2])]
                 csv_file_path) w
    = (Returned (), w')
    ∧ files w' !! csv_file_path
      = Some [header; [CInt x1; CFloat y1]; [CInt x2; CFloat y2]].
Proof.
  intros Hfile. eexists. split.
  - erewrite bind_returned by by apply (write_into_csv_two_columns _ _ _ _ _ 1).
    by apply (write_into_csv_two_columns _ _ _ _ _ 1).
  - simpl. rewrite lookup_insert_eq. simpl.
    by rewrite lookup_insert_eq, Hfile.
Qed.




End Properties.

(** * More properties of the code *)

Lemma has_point_app (s t : string) :
  has_point (s +:+ t) = has_point s || has_point t.
Proof.
  induction s as [|c s IH]; [done|]. rewrite app_cons. simpl.
  by rewrite IH, orb_assoc.
Qed.

Lemma decimal_text_has_point (m : string) : decimal_text m → has_point m = true.
Proof.
  intros (d1 & d2 & _ & _ & ->). rewrite has_point_app. simpl.
  apply orb_true_r.
Qed.

Section MoreProperties.
Context {source : RandomSource} {pandas : Pandas}.

(** ** What each call does to the world *)

Lemma bind_returned_inv {A B} (m : Py A) (f : A → Py B) (w w' : World) (b : B) :
  (m ≫= f) w = (Returned b, w') →
  ∃ a w1, m w = (Returned a, w1) ∧ f a w1 = (Returned b, w').
Proof.
  unfold mbind, Py_bind. destruct (m w) as [[a|e|] w1]; [by eauto|done..].
Qed.

Lemma bind_raised {A B} (m : Py A) (f : A → Py B) (w w' : World) (e : exn) :
  m w = (Raised e, w') → (m ≫= f) w = (Raised e, w').
Proof. intros Hm. unfold mbind, Py_bind. by rewrite Hm. Qed.

Lemma randrange_world (start stop : Z) (w : World) :
  ∃ s, (randrange start stop w).2 = set_rng s w.
Proof.
  unfold randrange. destruct (decide _).
  - destruct (randbelow _ _) as [r s]. by exists s.
  - exists (rng w). by destruct w.
Qed.

Lemma sample_world (fuel : nat) (min_value max_value mean : Z) (w : World) :
  ∃ s, (sample fuel min_value max_value mean w).2 = set_rng s w.
Proof.
  destruct fuel as [|fuel]; [exists (rng w); by destruct w|].
  unfold sample. simpl. unfold distribution_sample, mbind, Py_bind.
  destruct (randrange_world min_value max_value w) as [s Hs].
  destruct (randrange min_value max_value w) as [[v|e|] w1]; simpl in *;
    subst w1; exists s; [|done..].
  by destruct fuel.
Qed.

Lemma bench_world (bench_function cli_repo : string) (parameter : Z) (w : World) :
  (bench bench_function parameter cli_repo w).2 = w.
Proof.
  unfold bench, check_output, mbind, Py_bind, pure.
  destruct (run_process w _ _) as [returncode stdout|]; [|done].
  destruct (decide (returncode = 0)); [|done].
  by destruct (first_item _).
Qed.

Lemma load_world (bench_function : string) (w : World) :
  (load_bench_function_data bench_function w).2 = w.
Proof. unfold load_bench_function_data. by destruct (config_json w). Qed.

(** ** sample *)

(** The argument [mean] has no part in what [sample] does, and neither
    has the budget of the loop once it allows one run of the body:
    whether the draw succeeds or [randrange] raises, the loop is left
    after that run. *)
Lemma sample_ignores_mean (fuel1 fuel2 : nat) (min_value max_value : Z)
    (mean1 mean2 : Z) (w : World) :
  sample (S fuel1) min_value max_value mean1 w
  = sample (S fuel2) min_value max_value mean2 w.
Proof.
  unfold sample. simpl. unfold distribution_sample, mbind, Py_bind.
  destruct (randrange min_value max_value w) as [[v|e|] w1]; [|done..].
  simpl. by destruct fuel1, fuel2.
Qed.

(** ** load_bench_function_data *)

Lemma load_returns_inv (bench_function : string)
    (data : bench_function_data) (w w' : World) :
  load_bench_function_data bench_function w = (Returned data, w') →
  w' = w
  ∧ ∃ config table,
      config_json w = Document config
      ∧ benches config = Some table
      ∧ dict_get table bench_function = Some data.
Proof.
  unfold load_bench_function_data, subscript.
  destruct (config_json w) as [| |config]; [done..|].
  destruct (benches config) as [table|] eqn:Htable; [|done]. simpl.
  destruct (dict_get table bench_function) as [data'|] eqn:Hget; [|done].
  intros [= <- <-]. split; [done|]. by exists config, table.
Qed.

(** [load_bench_function_data] returns exactly when [config.json] is a
    document whose [benches] has the name as a key; what it returns is
    the entry under that key, whole, and the world is as before. *)
Lemma load_bench_function_data_returns (bench_function : string)
    (data : bench_function_data) (w w' : World) :
  load_bench_function_data bench_function w = (Returned data, w')
  ↔ w' = w
    ∧ ∃ config table,
        config_json w = Document config
        ∧ benches config = Some table
        ∧ dict_get table bench_function = Some data.
Proof.
  split; [apply load_returns_inv|].
  intros (-> & config & table & Hconfig & Htable & Hget).
  unfold load_bench_function_data, subscript.
  rewrite Hconfig, Htable. simpl. by rewrite Hget.
Qed.

(** A [config.json] that is no JSON makes [json.load] raise; a document
    without the key [benches] gives [KeyError] for that key, whatever
    the name of the benchmark.  The world is as before. *)
Lemma load_bench_function_data_unreadable (bench_function : string) (w : World) :
  (config_json w = Malformed →
   load_bench_function_data bench_function w = (Raised JSONDecodeError, w))
  ∧ (∀ config,
       config_json w = Document config → benches config = None →
       load_bench_function_data bench_function w
       = (Raised (KeyError "benches"), w)).
Proof.
  unfold load_bench_function_data. split.
  - by intros ->.
  - by intros config -> ->.
Qed.

(** ** bench *)

Lemma bench_nonzero (bench_function cli_repo stdout : string)
    (parameter returncode : Z) (w : World) :
  run_process w
    ["cargo"; "run"; "--release"; "bench"; bench_function; pretty parameter]
    cli_repo = Exited returncode stdout →
  returncode ≠ 0 →
  bench bench_function parameter cli_repo w
  = (Raised (CalledProcessError returncode), w).
Proof.
  intros Hrun Hcode. unfold bench. apply bind_raised.
  unfold check_output. rewrite Hrun. by rewrite decide_False.
Qed.

(** A benchmark process that exits with another status than 0 makes
    [bench] raise [CalledProcessError] with that status, whatever it
    printed; without the executable [cargo] it raises
    [FileNotFoundError]. *)
Lemma bench_process_failure (bench_function cli_repo : string) (parameter : Z)
    (w : World) :
  let args :=
    ["cargo"; "run"; "--release"; "bench"; bench_function; pretty parameter] in
  (∀ returncode stdout,
     run_process w args cli_repo = Exited returncode stdout →
     returncode ≠ 0 →
     bench bench_function parameter cli_repo w
     = (Raised (CalledProcessError returncode), w))
  ∧ (run_process w args cli_repo = NoExecutable →
     bench bench_function parameter cli_repo w
     = (Raised (FileNotFoundError "cargo"), w)).
Proof.
  intros args. subst args. split.
  - intros returncode stdout Hrun Hcode. by eapply bench_nonzero.
  - intros Hrun. unfold bench. apply bind_raised.
    unfold check_output. by rewrite Hrun.
Qed.

(** An output without a point in it, such as a time printed as a whole
    number, is not parsed: [bench] raises [IndexError]. *)
Lemma bench_without_point (bench_function cli_repo text : string)
    (parameter : Z) (w : World) :
  run_process w
    ["cargo"; "run"; "--release"; "bench"; bench_function; pretty parameter]
    cli_repo = Exited 0 text →
  has_point text = false →
  bench bench_function parameter cli_repo w = (Raised IndexError, w).
Proof.
  intros Hrun Hpoint. rewrite (bench_exited _ _ text) by exact Hrun.
  unfold pattern_findall.
  destruct (findall 0 text) as [|m rest] eqn:Hfind; [done|].
  destruct (findall_head_sound _ _ _ Hfind) as (Hform & j & pre & post & _ & ->).
  apply decimal_text_has_point in Hform.
  rewrite !has_point_app, Hform, orb_true_r in Hpoint. done.
Qed.

(** ** sample_and_bench *)

(** [sample_and_bench] leaves the working directory, [config.json] and
    every file as they are, whether it returns or raises: of the world
    it changes the state of the generator alone.  The record that it
    returns is not written anywhere. *)
Lemma sample_and_bench_world (fuel : nat) (cli_repo bench_function : string)
    (min_value max_value : Z) (w : World) :
  ∃ s,
    (sample_and_bench fuel cli_repo bench_function min_value max_value w).2
    = set_rng s w.
Proof.
  unfold sample_and_bench, mbind, Py_bind.
  destruct (sample_world fuel min_value max_value 0 w) as [s Hs]. exists s.
  destruct (sample fuel min_value max_value 0 w) as [[p|e|] w1];
    simpl in Hs; subst w1; [|done..].
  pose proof (bench_world bench_function cli_repo p (set_rng s w)) as Hbench.
  destruct (bench bench_function p cli_repo (set_rng s w)) as [[x|e|] w2];
    simpl in Hbench; subst w2; [|done..].
  pose proof (load_world bench_function (set_rng s w)) as Hload.
  destruct (load_bench_function_data bench_function (set_rng s w))
    as [[data|e|] w3]; simpl in Hload; subst w3; [|done..].
  unfold pure.
  destruct (subscript data "parameter") as [k1|e|]; [|done..].
  by destruct (subscript data "output") as [k2|e|].
Qed.

(** What [sample_and_bench] returns: a dict with the integer under the
    parameter name of the configuration, and then the float put under
    the output name. *)
Lemma sample_and_bench_returns (fuel : nat) (cli_repo bench_function : string)
    (min_value max_value : Z) (data : dict value) (w w' : World) :
  sample_and_bench fuel cli_repo bench_function min_value max_value w
    = (Returned data, w') →
  ∃ k1 k2 p x,
    configured w bench_function k1 k2
    ∧ data = dict_set (dict_set [] k1 (VInt p)) k2 (VFloat x).
Proof.
  unfold sample_and_bench, mbind, Py_bind.
  destruct (sample_world fuel min_value max_value 0 w) as [s Hs].
  destruct (sample fuel min_value max_value 0 w) as [[p|e|] w1];
    simpl in Hs; subst w1; [|done..].
  pose proof (bench_world bench_function cli_repo p (set_rng s w)) as Hbench.
  destruct (bench bench_function p cli_repo (set_rng s w)) as [[x|e|] w2];
    simpl in Hbench; subst w2; [|done..].
  destruct (load_bench_function_data bench_function (set_rng s w))
    as [[entry|e|] w3] eqn:Hload; [|done..].
  apply load_returns_inv in Hload
    as (-> & config & table & Hconfig & Htable & Hentry).
  unfold pure, subscript.
  destruct (dict_get entry "parameter") as [k1|] eqn:Hk1; [|done].
  destruct (dict_get entry "output") as [k2|] eqn:Hk2; [|done].
  intros [= <- <-]. exists k1, k2, p, x. split; [|done].
  by exists config, table, entry.
Qed.

(** The record that [sample_and_bench] returns cannot be written by
    [write_into_csv]: its values are numbers, and [pd.DataFrame] refuses
    a dict without a column.  This holds for every record it returns,
    in every world and for every path. *)
Theorem sample_and_bench_record_refused (fuel : nat)
    (cli_repo bench_function csv_file_path : string)
    (min_value max_value : Z) (data : dict value) (w w' : World) :
  sample_and_bench fuel cli_repo bench_function min_value max_value w
    = (Returned data, w') →
  write_into_csv data csv_file_path w'
  = (Raised (ValueError AllScalarValues), w').
Proof.
  intros (k1 & k2 & p & x & _ & ->)%sample_and_bench_returns.
  unfold write_into_csv. simpl. by destruct (decide (k1 = k2)).
Qed.

(** When the configuration gives the parameter and the output the same
    name, the record has that one key and it holds the output: the
    sampled parameter is not in the record. *)
Lemma sample_and_bench_same_name (fuel : nat) (cli_repo bench_function name : string)
    (min_value max_value : Z) (data : dict value) (w w' : World) :
  configured w bench_function name name →
  sample_and_bench fuel cli_repo bench_function min_value max_value w
    = (Returned data, w') →
  ∃ x, data = [(name, VFloat x)].
Proof.
  intros (config & table & entry & Hconfig & Htable & Hentry & Hp & Ho).
  intros (k1 & k2 & p & x & Hnames & ->)%sample_and_bench_returns.
  destruct Hnames as (config' & table' & entry' & Hconfig' & Htable' & Hentry'
                      & Hp' & Ho').
  assert (k1 = name ∧ k2 = name) as [-> ->] by (split; congruence).
  exists x. simpl. by rewrite decide_True.
Qed.


(** The failures of [sample_and_bench] come in the order of its steps.
    An empty range makes [randrange] raise before any process is
    started.  A benchmark that fails raises [CalledProcessError] whether
    or not [config.json] can be read.  A missing [config.json] is
    found only after the draw and after the benchmark has printed a
    time. *)
Theorem sample_and_bench_failures (fuel : nat) (cli_repo bench_function : string)
    (min_value max_value : Z) (w : World) :
  (max_value ≤ min_value →
   sample_and_bench (S fuel) cli_repo bench_function min_value max_value w
   = (Raised (ValueError (EmptyRange min_value max_value
                            (max_value - min_value))), w))
  ∧ (∀ returncode stdout,
       min_value < max_value →
       (∀ args dir, run_process w args dir = Exited returncode stdout) →
       returncode ≠ 0 →
       ∃ s,
         sample_and_bench (S fuel) cli_repo bench_function min_value max_value w
         = (Raised (CalledProcessError returncode), set_rng s w))
  ∧ (∀ stdout,
       min_value < max_value →
       (∀ args dir, run_process w args dir = Exited 0 stdout) →
       pattern_findall stdout ≠ [] →
       config_json w = NoFile →
       ∃ s,
         sample_and_bench (S fuel) cli_repo bench_function min_value max_value w
         = (Raised (FileNotFoundError (path_join (cwd w) "config.json")),
            set_rng s w)).
Proof.
  split; [|split].
  - intros Hle. unfold sample_and_bench, sample. simpl.
    unfold distribution_sample, randrange, mbind, Py_bind.
    by rewrite decide_False by lia.
  - intros returncode stdout Hlt Hrun Hcode.
    destruct (sample_draws fuel min_value max_value 0 w Hlt) as [Hsample _].
    eexists. unfold sample_and_bench.
    erewrite bind_returned by exact Hsample.
    apply bind_raised. eapply bench_nonzero; [apply Hrun | done].
  - intros stdout Hlt Hrun Hsome Hfile.
    destruct (sample_draws fuel min_value max_value 0 w Hlt) as [Hsample _].
    eexists. unfold sample_and_bench.
    erewrite bind_returned by exact Hsample.
    destruct (pattern_findall stdout) as [|m rest] eqn:Hfind; [done|].
    destruct (findall_head_sound _ _ _ Hfind) as [Hform _].
    destruct (py_float_decimal m Hform) as [x Hx].
    erewrite bind_returned; last first.
    { rewrite (bench_exited _ _ stdout) by apply Hrun.
      rewrite Hfind. simpl. by rewrite Hx. }
    apply bind_raised. unfold load_bench_function_data. simpl.
    by rewrite Hfile.
Qed.

(** ** init_csv *)

(** What [init_csv] does to the world: nothing, or, where no file was
    at the path, the one new file with a header line of two names. *)
Lemma init_csv_world (csv_file_path bench_function : string) (w : World) :
  let w' := (init_csv csv_file_path bench_function w).2 in
  w' = w
  ∨ (files w !! csv_file_path = None
     ∧ ∃ p o,
         w' = set_files (<[csv_file_path := [[CStr p; CStr o]]]> (files w)) w).
Proof.
  unfold init_csv, mbind, Py_bind.
  pose proof (load_world bench_function w) as Hload.
  destruct (load_bench_function_data bench_function w) as [[data|e|] w1];
    simpl in Hload; subst w1; [|by left..].
  unfold pure.
  destruct (subscript data "parameter") as [p|e|]; [|by left..].
  destruct (subscript data "output") as [o|e|]; [|by left..].
  unfold path_exists, read_csv_columns.
  destruct (files w !! csv_file_path) as [[|header records]|] eqn:Hfile;
    simpl; rewrite ?Hfile.
  - by left.
  - left. by destruct (decide _).
  - right. split; [done|]. by exists p, o.
Qed.

(** [init_csv] never changes a file that is there, whatever the
    configuration and whether it returns or raises: every file of the
    world keeps its records, and the configuration and the generator are
    as before. *)
Theorem init_csv_keeps_files (csv_file_path bench_function : string) (w : World) :
  let w' := (init_csv csv_file_path bench_function w).2 in
  (∀ path records, files w !! path = Some records →
                   files w' !! path = Some records)
  ∧ config_json w' = config_json w
  ∧ rng w' = rng w
  ∧ cwd w' = cwd w.
Proof.
  intros w'. subst w'.
  destruct (init_csv_world csv_file_path bench_function w)
    as [->|(Hfresh & p & o & ->)]; [done|].
  split; [|done]. intros path records Hpath. simpl.
  rewrite lookup_insert_ne; [done|]. congruence.
Qed.

(** A file that is there and holds no line is not given a header line:
    [pandas.read_csv] raises [EmptyDataError], [init_csv] with it, and
    the file stays empty. *)
Lemma init_csv_empty_file (csv_file_path bench_function p o : string) (w : World) :
  configured w bench_function p o →
  files w !! csv_file_path = Some [] →
  init_csv csv_file_path bench_function w = (Raised EmptyDataError, w).
Proof.
  intros Hconfig Hfile.
  rewrite (init_csv_configured _ _ _ _ _ Hconfig), Hfile.
  apply bind_raised. unfold read_csv_columns. by rewrite Hfile.
Qed.

(** An entry of the configuration that lacks the key [parameter], or has
    it and lacks the key [output], makes [init_csv] raise [KeyError] for
    the missing key.  The file is neither looked at nor created. *)
Lemma init_csv_missing_key (csv_file_path bench_function : string)
    (data : bench_function_data) (w : World) :
  load_bench_function_data bench_function w = (Returned data, w) →
  (dict_get data "parameter" = None →
   init_csv csv_file_path bench_function w = (Raised (KeyError "parameter"), w))
  ∧ (∀ p, dict_get data "parameter" = Some p →
          dict_get data "output" = None →
          init_csv csv_file_path bench_function w
          = (Raised (KeyError "output"), w)).
Proof.
  intros Hload. unfold init_csv. split.
  - intros Hp. erewrite bind_returned by exact Hload.
    apply bind_raised. unfold pure, subscript. by rewrite Hp.
  - intros p Hp Ho. erewrite bind_returned by exact Hload.
    erewrite bind_returned; last first.
    { unfold pure, subscript. by rewrite Hp. }
    apply bind_raised. unfold pure, subscript. by rewrite Ho.
Qed.

(** ** write_into_csv *)

Lemma write_into_csv_outcome (data : dict value) (csv_file_path : string)
    (w : World) :
  write_into_csv data csv_file_path w =
    match DataFrame data with
    | Returned df =>
        (Returned (),
         set_files (<[csv_file_path :=
                        default [] (files w !! csv_file_path)
                        ++ frame_records df]> (files w)) w)
    | Raised e => (Raised e, w)
    | OutOfFuel => (OutOfFuel, w)
    end.
Proof.
  unfold write_into_csv, mbind, Py_bind, pure.
  by destruct (DataFrame data).
Qed.


(** The columns of the frame that [pd.DataFrame] builds: one per key, in
    the order of the keys, each of as many cells as the frame has
    rows. *)
Lemma DataFrame_returns (data : dict value) (df : frame) :
  DataFrame data = Returned df →
  frame_columns df = prod_map id (column_cells (frame_rows df)) <$> data
  ∧ ∀ name v, (name, v) ∈ data →
              length (column_cells (frame_rows df) v) = frame_rows df.
Proof.
  unfold DataFrame. destruct data as [|item data'].
  { intros [= <-]. split; [done|]. intros name v Hin. by apply elem_of_nil in Hin. }
  destruct (omap value_length (item :: data').*2) as [|n lengths] eqn:Hlengths;
    [done|].
  destruct (forallb (Nat.eqb n) lengths) eqn:Hall; [|done].
  intros [= <-]. simpl. split; [done|]. intros name v Hin.
  destruct (value_length v) as [m|] eqn:Hv.
  - apply column_cells_length. rewrite Hv. f_equal.
    assert (m ∈ n :: lengths) as Hm.
    { rewrite <- Hlengths. apply list_elem_of_omap. exists v. split; [|done].
      apply list_elem_of_fmap. by exists (name, v). }
    apply elem_of_cons in Hm as [->|Hm]; [done|].
    rewrite forallb_forall in Hall. symmetry. apply Nat.eqb_eq, Hall.
    by apply list_elem_of_In.
  - destruct v; simpl in *; try done; apply length_replicate.
Qed.

Lemma omap_all_some {A B} (f : A → option B) (l : list A) :
  (∀ x, x ∈ l → is_Some (f x)) →
  length (omap f l) = length l
  ∧ ∀ k x, l !! k = Some x → omap f l !! k = f x.
Proof.
  induction l as [|a l IH]; intros Hall; [done|].
  destruct (Hall a) as [b Hb]; [left|]. simpl. rewrite Hb.
  destruct IH as [Hlen Hlookup].
  { intros x Hx. apply Hall. by right. }
  split; [simpl; by f_equal|].
  intros [|k] x Hx; simpl in *; [by injection Hx as <- | by apply Hlookup].
Qed.

(** The records of the frame that [pd.DataFrame] builds from a dict:
    as many as the frame has rows, each with one field per key, the
    field of a key at the position of the key. *)
Lemma frame_records_rows (data : dict value) (df : frame) :
  DataFrame data = Returned df →
  length (frame_records df) = frame_rows df
  ∧ ∀ i row, frame_records df !! i = Some row →
      length row = length data
      ∧ ∀ k name v, data !! k = Some (name, v) →
          ∃ c, row !! k = Some c
               ∧ column_cells (frame_rows df) v !! i = Some c.
Proof.
  intros Hdf.
  destruct (DataFrame_returns data df Hdf) as [Hcolumns Hlength].
  unfold frame_records. rewrite length_fmap, length_seq. split; [done|].
  intros i row. rewrite list_lookup_fmap.
  destruct (seq 0 (frame_rows df) !! i) as [i'|] eqn:Hi; [|done].
  apply lookup_seq in Hi as [-> Hi]. simpl. intros [= <-].
  destruct (omap_all_some (λ column : string * list cell, column.2 !! i)
              (frame_columns df)) as [Hlen Hlookup].
  { intros column. rewrite Hcolumns.
    intros ([name v] & -> & Hin)%list_elem_of_fmap. simpl.
    apply lookup_lt_is_Some. by rewrite (Hlength name v Hin). }
  split; [by rewrite Hlen, Hcolumns, length_fmap|].
  intros k name v Hk.
  assert (frame_columns df !! k
          = Some (name, column_cells (frame_rows df) v)) as Hcolumn.
  { rewrite Hcolumns, list_lookup_fmap. unfold dict in *. by rewrite Hk. }
  rewrite (Hlookup _ _ Hcolumn). simpl.
  destruct (lookup_lt_is_Some_2 (column_cells (frame_rows df) v) i) as [c Hc].
  { rewrite (Hlength name v); [done|]. by eapply list_elem_of_lookup_2. }
  by exists c.
Qed.


(** A file whose records all have [n] fields keeps that width under
    [write_into_csv] with a dict of [n] keys, whatever the values and
    whether the call returns or raises: with two keys, a file of two
    columns stays a file of two columns. *)
Theorem write_into_csv_keeps_width (data : dict value) (csv_file_path : string)
    (old : csv) (w : World) :
  files w !! csv_file_path = Some old →
  Forall (λ record, length record = length data) old →
  ∃ new,
    files (write_into_csv data csv_file_path w).2 !! csv_file_path = Some new
    ∧ Forall (λ record, length record = length data) new.
Proof.
  intros Hfile Hold. rewrite write_into_csv_outcome.
  destruct (DataFrame data) as [df|e|] eqn:Hdf; simpl; [|by eauto..].
  rewrite lookup_insert_eq, Hfile. simpl. eexists. split; [done|].
  apply Forall_app. split; [done|].
  apply Forall_lookup. intros i row Hrow.
  destruct (frame_records_rows data df Hdf) as [_ Hrows].
  by destruct (Hrows i row Hrow).
Qed.

(** Two columns of different lengths make no frame: [pd.DataFrame]
    raises [ValueError], and no part of either column is written. *)
Lemma write_into_csv_unequal_columns (csv_file_path k1 k2 : string)
    (v1 v2 : value) (n1 n2 : nat) (w : World) :
  value_length v1 = Some n1 →
  value_length v2 = Some n2 →
  n1 ≠ n2 →
  write_into_csv [(k1, v1); (k2, v2)] csv_file_path w
  = (Raised (ValueError ArraysLength), w).
Proof.
  intros Hv1 Hv2 Hne. rewrite write_into_csv_outcome.
  unfold DataFrame. simpl. rewrite Hv1, Hv2. simpl.
  by rewrite (proj2 (Nat.eqb_neq n1 n2) Hne).
Qed.



(** Two appends in a row write what one append of the joined columns
    writes. *)
Lemma write_into_csv_batches (csv_file_path p o : string)
    (xs1 xs2 : list Z) (ys1 ys2 : list float) (w : World) :
  length xs1 = length ys1 →
  length xs2 = length ys2 →
  (write_into_csv [(p, VInts xs1); (o, VFloats ys1)] csv_file_path
     ≫= λ _, write_into_csv [(p, VInts xs2); (o, VFloats ys2)] csv_file_path) w
  = write_into_csv [(p, VInts (xs1 ++ xs2)); (o, VFloats (ys1 ++ ys2))]
      csv_file_path w.
Proof.
  intros Hlen1 Hlen2.
  erewrite bind_returned; last first.
  { apply (write_into_csv_two_columns _ _ _ _ _ (length xs1));
      simpl; by f_equal. }
  rewrite (write_into_csv_two_columns _ _ _ _ _ (length xs2))
    by (simpl; by f_equal).
  rewrite (write_into_csv_two_columns _ _ _ _ _ (length (xs1 ++ xs2)))
    by (simpl; f_equal; by rewrite ?length_app, ?Hlen1, ?Hlen2).
  simpl. rewrite lookup_insert_eq, insert_insert_eq. simpl.
  rewrite !fmap_app, zip_with_app by (by rewrite !length_fmap).
  by rewrite app_assoc.
Qed.

(** [init_csv] where the file is there, as a function of the
    configuration and of the first record alone. *)
Lemma init_csv_existing_outcome (csv_file_path bench_function : string)
    (header : list cell) (records : csv) (w : World) :
  files w !! csv_file_path = Some (header :: records) →
  (init_csv csv_file_path bench_function w).1 =
    (data ← (load_bench_function_data bench_function w).1;
     p ← subscript data "parameter";
     o ← subscript data "output";
     let existing_headers := column_names (cell_text <$> header) in
     if decide ((list_to_set [p; o] : gset string)
                ≠ list_to_set existing_headers) then
       Raised (ValueError (HeadersMismatch existing_headers))
     else Returned ()).
Proof.
  intros Hfile. unfold init_csv, mbind, Py_bind, outcome_bind.
  pose proof (load_world bench_function w) as Hload.
  destruct (load_bench_function_data bench_function w) as [[data|e|] w1];
    simpl in Hload; subst w1; [|done..].
  unfold pure. simpl.
  destruct (subscript data "parameter") as [p|e|]; [|done..].
  destruct (subscript data "output") as [o|e|]; [|done..].
  unfold path_exists, read_csv_columns. rewrite Hfile. simpl.
  rewrite Hfile. by destruct (decide _).
Qed.

(** Appending does not touch the header line, and so it does not change
    what [init_csv] says about the file: after [write_into_csv], with
    any dict and whether it returned or raised, the file starts with the
    same record and [init_csv] returns or raises as it would have
    before. *)
Theorem write_into_csv_keeps_header (data : dict value)
    (csv_file_path bench_function : string) (header : list cell)
    (records : csv) (w : World) :
  files w !! csv_file_path = Some (header :: records) →
  let w' := (write_into_csv data csv_file_path w).2 in
  (∃ appended,
     files w' !! csv_file_path = Some (header :: records ++ appended))
  ∧ (init_csv csv_file_path bench_function w').1
    = (init_csv csv_file_path bench_function w).1.
Proof.
  intros Hfile w'. subst w'. rewrite write_into_csv_outcome.
  destruct (DataFrame data) as [df|e|]; simpl.
  - assert (files (set_files (<[csv_file_path :=
                default [] (files w !! csv_file_path) ++ frame_records df]>
                (files w)) w) !! csv_file_path
            = Some (header :: records ++ frame_records df)) as Hfile'.
    { simpl. by rewrite lookup_insert_eq, Hfile. }
    split; [by eauto|].
    rewrite (init_csv_existing_outcome _ _ _ _ _ Hfile').
    rewrite (init_csv_existing_outcome _ _ _ _ _ Hfile).
    unfold load_bench_function_data. simpl.
    by destruct (config_json w).
  - split; [|done]. exists []. by rewrite app_nil_r.
  - split; [|done]. exists []. by rewrite app_nil_r.
Qed.

(** ** create_repo_from_commmit and build_release *)

Lemma run_checked_outcome (args : list string) (dir stdout : string)
    (returncode : Z) (w : World) :
  run_process w args dir = Exited returncode stdout →
  run_checked args dir w =
    (if decide (returncode = 0) then Returned ()
     else Raised (CalledProcessError returncode), w).
Proof.
  intros Hrun. unfold run_checked. rewrite Hrun. by destruct (decide _).
Qed.

(** Both calls pass on the failure of their child process: they return
    exactly when it exits with status 0, and raise [CalledProcessError]
    with its status otherwise, whatever it printed.  The worktree is
    added from the working directory of the process, the build runs in
    the repository that is given. *)
Theorem child_failure_is_raised (commit commit_folder cli_repo stdout : string)
    (returncode : Z) (w : World) :
  (run_process w ["git"; "worktree"; "add"; "-f"; commit_folder; commit] (cwd w)
     = Exited returncode stdout →
   (create_repo_from_commmit commit commit_folder w = (Returned (), w)
    ↔ returncode = 0)
   ∧ (returncode ≠ 0 →
      create_repo_from_commmit commit commit_folder w
      = (Raised (CalledProcessError returncode), w)))
  ∧ (run_process w ["cargo"; "build"; "--release"] cli_repo
       = Exited returncode stdout →
     (build_release cli_repo w = (Returned (), w) ↔ returncode = 0)
     ∧ (returncode ≠ 0 →
        build_release cli_repo w
        = (Raised (CalledProcessError returncode), w))).
Proof.
  split; intros Hrun.
  - unfold create_repo_from_commmit.
    rewrite (run_checked_outcome _ _ _ _ _ Hrun).
    destruct (decide (returncode = 0)); by repeat split.
  - unfold build_release. rewrite (run_checked_outcome _ _ _ _ _ Hrun).
    destruct (decide (returncode = 0)); by repeat split.
Qed.

(** ** get_csv_file *)

Lemma no_slash_app (s t : string) :
  no_slash (s +:+ t) = no_slash s && no_slash t.
Proof.
  induction s as [|c s IH]; [done|]. rewrite app_cons. simpl.
  by rewrite IH, andb_assoc.
Qed.

Lemma split_slash_no_slash (s : string) :
  no_slash s = true → split_slash s = [s].
Proof.
  induction s as [|c s IH]; [done|]. simpl.
  intros [Hc Hs]%andb_true_iff.
  apply negb_true_iff, bool_decide_eq_false in Hc.
  by rewrite decide_False, (IH Hs).
Qed.

Lemma components_plain (s : string) : plain_name s → components s = [s].
Proof.
  intros (Hempty & Hdot & Hslash). unfold components.
  rewrite (split_slash_no_slash s Hslash).
  by rewrite filter_cons_True.
Qed.

Lemma plain_no_leading_slash (s : string) :
  no_slash s = true → starts_with_slash s = false.
Proof.
  destruct s as [|c s]; [done|]. simpl.
  intros [Hc _]%andb_true_iff. by apply negb_true_iff.
Qed.

Lemma path_div_plain (p : posix_path) (s : string) :
  plain_name s → path_div p s = {| root := root p; parts := parts p ++ [s] |}.
Proof.
  intros Hplain. unfold path_div.
  rewrite plain_no_leading_slash by apply Hplain.
  by rewrite components_plain.
Qed.

Lemma csv_name_plain (commit : string) :
  no_slash commit = true → plain_name (commit +:+ ".csv").
Proof.
  intros Hslash. split; [|split].
  - by destruct commit.
  - destruct commit as [|c [|c' commit]]; done.
  - by rewrite no_slash_app, Hslash.
Qed.

Lemma app_inj_suffix (s1 s2 t : string) : s1 +:+ t = s2 +:+ t → s1 = s2.
Proof.
  revert s2. induction s1 as [|c1 s1 IH]; intros [|c2 s2] Heq; [done|..].
  - apply (f_equal String.length) in Heq.
    rewrite app_empty_l, app_cons in Heq. simpl in Heq.
    rewrite length_app_string in Heq. lia.
  - apply (f_equal String.length) in Heq.
    rewrite app_empty_l, app_cons in Heq. simpl in Heq.
    rewrite length_app_string in Heq. lia.
  - rewrite !app_cons in Heq. injection Heq as -> Heq. f_equal. by apply IH.
Qed.

(** For a benchmark name and a commit that are plain names, the file is
    [data/<bench_function>/<commit>.csv] under the working directory. *)
Lemma get_csv_file_plain (commit bench_function : string) (w : World) :
  plain_name bench_function →
  no_slash commit = true →
  get_csv_file commit bench_function w
  = (Returned {| root := splitroot (cwd w);
                 parts := components (cwd w)
                          ++ ["data"; bench_function; commit +:+ ".csv"] |}, w).
Proof.
  intros Hbench Hcommit. unfold get_csv_file.
  rewrite (path_div_plain _ (commit +:+ ".csv")) by by apply csv_name_plain.
  rewrite (path_div_plain _ bench_function) by done.
  simpl. by rewrite <- !app_assoc.
Qed.

(** Two pairs of a commit and a benchmark, all plain names, have the
    same file only when they are the same pair: no two datasets share a
    file. *)
Theorem get_csv_file_injective (commit1 commit2 bench1 bench2 : string)
    (w : World) :
  plain_name bench1 → plain_name bench2 →
  no_slash commit1 = true → no_slash commit2 = true →
  (get_csv_file commit1 bench1 w).1 = (get_csv_file commit2 bench2 w).1 →
  commit1 = commit2 ∧ bench1 = bench2.
Proof.
  intros Hb1 Hb2 Hc1 Hc2. unfold get_csv_file. simpl.
  rewrite !(path_div_plain _ (_ +:+ ".csv")) by by apply csv_name_plain.
  rewrite !(path_div_plain _ bench1), !(path_div_plain _ bench2) by done.
  intros [= Hparts]. rewrite <- !app_assoc in Hparts.
  do 2 apply app_inv_head in Hparts.
  injection Hparts as Hbench Hcommit.
  split; [by eapply app_inj_suffix | done].
Qed.

(** A benchmark name that starts with a slash takes the place of the
    working directory and of [data]: the file is then
    [<bench_function>/<commit>.csv], wherever the process runs. *)
Lemma get_csv_file_absolute (commit bench_function : string) (w : World) :
  starts_with_slash bench_function = true →
  no_slash commit = true →
  get_csv_file commit bench_function w
  = (Returned {| root := splitroot bench_function;
                 parts := components bench_function
                          ++ [commit +:+ ".csv"] |}, w).
Proof.
  intros Hbench Hcommit. unfold get_csv_file.
  rewrite (path_div_plain _ (commit +:+ ".csv")) by by apply csv_name_plain.
  assert (path_div (path_div (parse_path (cwd w)) "data") bench_function
          = parse_path bench_function) as ->
    by (unfold path_div at 1; by rewrite Hbench).
  done.
Qed.

End MoreProperties.

(** * The theorems at work in the example world *)

Lemma example_configured (fs : gmap string csv) (stdout : string) :
  configured (example_world example_config fs stdout) "sort_vec" "size" "time_ms".
Proof. by eexists _, _, _. Defined.

Lemma sample_in_range_witness :
  ∃ v s,
    sample 1 100 200 0 (example_world example_config ∅ "")
      = (Returned v, set_rng s (example_world example_config ∅ ""))
    ∧ 100 ≤ v < 200.
Proof. apply (sample_in_range (source:=lcg_source)). lia. Defined.

Lemma sample_empty_range_witness :
  sample 1 200 100 0 (example_world example_config ∅ "")
  = (Raised (ValueError (EmptyRange 200 100 (-100))),
     example_world example_config ∅ "").
Proof. apply (sample_empty_range (source:=lcg_source)). lia. Defined.

Lemma sample_and_bench_end_to_end_witness :
  let w := example_world example_config ∅ "elapsed: 3.21s" in
  ∃ p s,
    sample_and_bench 1 "/work/build/cli" "sort_vec" 100 200 w
      = (Returned [("size", VInt p); ("time_ms", VFloat 3.21%float)],
         set_rng s w)
    ∧ 100 ≤ p < 200.
Proof.
  apply (sample_and_bench_end_to_end (source:=lcg_source)).
  - apply example_configured.
  - reflexivity.
  - lia.
Defined.

Lemma load_bench_function_data_missing_witness :
  (∃ e,
     load_bench_function_data "sort_vec" (example_world NoFile ∅ "")
       = (Raised e, example_world NoFile ∅ "")
     ∧ e = FileNotFoundError "/work/config.json"
     ∧ kind_of e = Some ConfigKeyMissing)
  ∧ (∃ e,
       load_bench_function_data "merge" (example_world example_config ∅ "")
         = (Raised e, example_world example_config ∅ "")
       ∧ e = KeyError "merge"
       ∧ kind_of e = Some ConfigKeyMissing).
Proof.
  split.
  - apply (load_bench_function_data_missing (source:=lcg_source)).
    reflexivity.
  - eapply (load_bench_function_data_missing (source:=lcg_source));
      reflexivity.
Defined.







Lemma write_into_csv_twice_columns_witness :
  let file := [[CStr "size"; CStr "time_ms"]] in
  let w := example_world example_config {[example_csv_path := file]} "" in
  ∃ w',
    (write_into_csv [("size", VInts [10]); ("time_ms", VFloats [1.5%float])]
       example_csv_path
       ≫= λ _, write_into_csv
                 [("size", VInts [20]); ("time_ms", VFloats [2.7%float])]
                 example_csv_path) w
    = (Returned (), w')
    ∧ files w' !! example_csv_path
      = Some [[CStr "size"; CStr "time_ms"];
              [CInt 10; CFloat 1.5%float]; [CInt 20; CFloat 2.7%float]].
Proof.
  apply (write_into_csv_twice_columns (source:=lcg_source)).
  reflexivity.
Defined.


Lemma load_bench_function_data_unreadable_witness :
  load_bench_function_data "sort_vec" (example_world Malformed ∅ "")
    = (Raised JSONDecodeError, example_world Malformed ∅ "")
  ∧ load_bench_function_data "sort_vec"
      (example_world (Document {| benches := None |}) ∅ "")
    = (Raised (KeyError "benches"),
       example_world (Document {| benches := None |}) ∅ "").
Proof.
  split.
  - apply (load_bench_function_data_unreadable (source:=lcg_source)).
    reflexivity.
  - eapply (load_bench_function_data_unreadable (source:=lcg_source));
      reflexivity.
Defined.

Lemma bench_process_failure_witness :
  (let w := example_world_ending example_config (Exited 101 "time: 1.5") in
   bench "sort_vec" 150 "/work/build/cli" w
   = (Raised (CalledProcessError 101), w))
  ∧ (let w := example_world_ending example_config NoExecutable in
     bench "sort_vec" 150 "/work/build/cli" w
     = (Raised (FileNotFoundError "cargo"), w)).
Proof.
  split; intros w.
  - eapply (bench_process_failure (source:=lcg_source)); [reflexivity|lia].
  - apply (bench_process_failure (source:=lcg_source)). reflexivity.
Defined.

Lemma bench_without_point_witness :
  let w := example_world example_config ∅ "elapsed: 5 ms" in
  bench "sort_vec" 150 "/work/build/cli" w = (Raised IndexError, w).
Proof.
  apply (bench_without_point (source:=lcg_source) _ _ "elapsed: 5 ms");
    reflexivity.
Defined.

Lemma sample_and_bench_record_refused_witness :
  let w := example_world example_config ∅ "elapsed: 3.21s" in
  ∃ data w',
    sample_and_bench 1 "/work/build/cli" "sort_vec" 100 200 w
      = (Returned data, w')
    ∧ write_into_csv data example_csv_path w'
      = (Raised (ValueError AllScalarValues), w').
Proof.
  intros w. eexists _, _. split; [reflexivity|].
  apply (sample_and_bench_record_refused (source:=lcg_source)
           1 "/work/build/cli" "sort_vec" _ 100 200 _ w).
  reflexivity.
Defined.

Lemma sample_and_bench_same_name_witness :
  let w := example_world example_same_name_config ∅ "elapsed: 3.21s" in
  ∃ data w',
    sample_and_bench 1 "/work/build/cli" "sort_vec" 100 200 w
      = (Returned data, w')
    ∧ ∃ x, data = [("value", VFloat x)].
Proof.
  intros w. eexists _, _. split; [reflexivity|].
  eapply (sample_and_bench_same_name (source:=lcg_source)
            1 "/work/build/cli" "sort_vec" "value" 100 200 _ w).
  - by eexists _, _, _.
  - reflexivity.
Defined.

Lemma sample_and_bench_failures_witness :
  (let w := example_world_ending NoFile (Exited 101 "") in
   sample_and_bench 1 "/work/build/cli" "sort_vec" 200 100 w
   = (Raised (ValueError (EmptyRange 200 100 (-100))), w))
  ∧ (let w := example_world_ending NoFile (Exited 101 "") in
     ∃ s,
       sample_and_bench 1 "/work/build/cli" "sort_vec" 100 200 w
       = (Raised (CalledProcessError 101), set_rng s w))
  ∧ (let w := example_world_ending NoFile (Exited 0 "elapsed: 3.21s") in
     ∃ s,
       sample_and_bench 1 "/work/build/cli" "sort_vec" 100 200 w
       = (Raised (FileNotFoundError "/work/config.json"), set_rng s w)).
Proof.
  split; [|split]; intros w.
  - apply (sample_and_bench_failures (source:=lcg_source)). lia.
  - eapply (sample_and_bench_failures (source:=lcg_source));
      [lia | reflexivity | lia].
  - eapply (sample_and_bench_failures (source:=lcg_source));
      [lia | reflexivity | discriminate | reflexivity].
Defined.

Lemma init_csv_empty_file_witness :
  let w := example_world example_config {[example_csv_path := []]} "" in
  init_csv (pandas:=reference_pandas) example_csv_path "sort_vec" w
  = (Raised EmptyDataError, w).
Proof.
  eapply (init_csv_empty_file (source:=lcg_source) (pandas:=reference_pandas)).
  - apply example_configured.
  - reflexivity.
Defined.

Lemma init_csv_missing_key_witness :
  let w := example_world example_partial_config ∅ "" in
  init_csv (pandas:=reference_pandas) example_csv_path "sort_vec" w
  = (Raised (KeyError "output"), w).
Proof.
  intros w.
  eapply (init_csv_missing_key (source:=lcg_source) (pandas:=reference_pandas)
            example_csv_path "sort_vec" [("parameter", "size")] w);
    reflexivity.
Defined.

Lemma init_csv_keeps_files_witness :
  let file := [[CStr "n"; CStr "seconds"]; [CInt 7; CFloat 0.5%float]] in
  let w := example_world example_config {[example_csv_path := file]} "" in
  files (init_csv (pandas:=reference_pandas) example_csv_path "sort_vec" w).2
    !! example_csv_path = Some file.
Proof.
  intros file w.
  apply (init_csv_keeps_files (source:=lcg_source) (pandas:=reference_pandas)
           example_csv_path "sort_vec" w).
  reflexivity.
Defined.



Lemma write_into_csv_unequal_columns_witness :
  let w := example_world example_config ∅ "" in
  write_into_csv [("size", VInts [10; 20]); ("time_ms", VFloats [1.5%float])]
    example_csv_path w
  = (Raised (ValueError ArraysLength), w).
Proof.
  intros w.
  apply (write_into_csv_unequal_columns (source:=lcg_source) _ _ _ _ _ 2 1);
    [reflexivity | reflexivity | lia].
Defined.

Lemma write_into_csv_batches_witness :
  let w := example_world example_config ∅ "" in
  (write_into_csv [("size", VInts [10]); ("time_ms", VFloats [1.5%float])]
     example_csv_path
     ≫= λ _, write_into_csv
               [("size", VInts [20; 30]);
                ("time_ms", VFloats [2.7%float; 3.21%float])]
               example_csv_path) w
  = write_into_csv
      [("size", VInts ([10] ++ [20; 30]));
       ("time_ms", VFloats ([1.5%float] ++ [2.7%float; 3.21%float]))]
      example_csv_path w.
Proof.
  intros w. apply (write_into_csv_batches (source:=lcg_source)); reflexivity.
Defined.

Lemma write_into_csv_keeps_header_witness :
  let header := [CStr "size"; CStr "time_ms"] in
  let w := example_world example_config {[example_csv_path := [header]]} "" in
  let w' := (write_into_csv
               [("size", VInts [10]); ("time_ms", VFloats [1.5%float])]
               example_csv_path w).2 in
  (∃ appended, files w' !! example_csv_path = Some (header :: [] ++ appended))
  ∧ (init_csv (pandas:=reference_pandas) example_csv_path "sort_vec" w').1
    = (init_csv (pandas:=reference_pandas) example_csv_path "sort_vec" w).1.
Proof.
  intros header w.
  apply (write_into_csv_keeps_header (source:=lcg_source)
           (pandas:=reference_pandas) _ example_csv_path "sort_vec" header [] w).
  reflexivity.
Defined.

Lemma child_failure_is_raised_witness :
  let w := example_world_ending example_config (Exited 128 "") in
  create_repo_from_commmit "0a1b2c" "/work/build/sort_vec/0a1b2c" w
    = (Raised (CalledProcessError 128), w)
  ∧ build_release "/work/build/sort_vec/0a1b2c/cli" w
    = (Raised (CalledProcessError 128), w).
Proof.
  intros w.
  destruct (child_failure_is_raised (source:=lcg_source)
              "0a1b2c" "/work/build/sort_vec/0a1b2c"
              "/work/build/sort_vec/0a1b2c/cli" "" 128 w) as [Hgit Hcargo].
  split.
  - apply Hgit; [reflexivity | lia].
  - apply Hcargo; [reflexivity | lia].
Defined.

Lemma example_plain_name : plain_name "sort_vec".
Proof. by repeat split. Defined.

Lemma get_csv_file_plain_witness :
  let w := example_world example_config ∅ "" in
  get_csv_file "0a1b2c" "sort_vec" w
  = (Returned {| root := "/";
                 parts := ["work"; "data"; "sort_vec"; "0a1b2c.csv"] |}, w).
Proof.
  intros w.
  apply (get_csv_file_plain (source:=lcg_source) "0a1b2c" "sort_vec" w).
  - apply example_plain_name.
  - reflexivity.
Defined.

Lemma get_csv_file_injective_witness :
  "0a1b2c" = "0a1b2c" ∧ "sort_vec" = "sort_vec".
Proof.
  apply (get_csv_file_injective (source:=lcg_source) "0a1b2c" "0a1b2c"
           "sort_vec" "sort_vec" (example_world example_config ∅ "")).
  - apply example_plain_name.
  - apply example_plain_name.
  - reflexivity.
  - reflexivity.
  - reflexivity.
Defined.

Lemma get_csv_file_absolute_witness :
  let w := example_world example_config ∅ "" in
  get_csv_file "0a1b2c" "/tmp/elsewhere" w
  = (Returned {| root := "/"; parts := ["tmp"; "elsewhere"; "0a1b2c.csv"] |}, w).
Proof.
  intros w.
  apply (get_csv_file_absolute (source:=lcg_source) "0a1b2c" "/tmp/elsewhere" w);
    reflexivity.
Defined.

Lemma write_into_csv_keeps_width_witness :
  let file := [[CStr "size"; CStr "time_ms"]; [CInt 7; CFloat 0.5%float]] in
  let data := [("size", VInts [10; 20]); ("time_ms", VFloat 1.5%float)] in
  let w := example_world example_config {[example_csv_path := file]} "" in
  ∃ new,
    files (write_into_csv data example_csv_path w).2 !! example_csv_path
    = Some new
    ∧ Forall (λ record, length record = length data) new.
Proof.
  intros file data w.
  apply (write_into_csv_keeps_width (source:=lcg_source) data
           example_csv_path file w).
  - reflexivity.
  - by repeat constructor.
Defined.

